(** * check-tempager-3e-temperature: a shallow embedding of [main.go]

    The check validates its target argument ([checkArgs]), then polls a
    Tempager 3e over SNMP v1, type-asserts and scales the three returned
    values, prints one Nagios-style status line and returns a Sensu check
    state ([executeCheck]).

    Go's [float64] is the kernel's binary64 type [float]; Go's [int] is [Z];
    byte slices are [list byte]; the global [gosnmp.Default], the standard
    output and the SNMP traffic are fields of an explicit [World] threaded
    through a small state-and-panic monad, in which [defer] is a combinator
    that runs on normal return and on panic alike. *)

From Stdlib Require Import ZArith List String Ascii Bool Lia.
From Stdlib.Strings Require Import Byte.
From Stdlib Require Import Floats DecimalString QArith Qabs.
Import ListNotations.

Local Open Scope string_scope.
Local Open Scope Z_scope.

(** ** Go values used by the check *)

(** [float64(n)] for an integer [n]: the binary64 nearest to [n]. *)
Definition float64_of_int (n : Z) : float :=
  SF2Prim (binary_normalize prec emax n 0 false).

(** The line feed written as a backslash-n escape in the Go format strings. *)
Definition LF : string := String (ascii_of_nat 10) EmptyString.

(** *** [fmt]'s [%.2f] verb

    The value is rounded to two decimals on its exact binary expansion, ties
    going to the even digit, and printed as sign, integer part, point and two
    fraction digits; infinities and NaN print as words. *)

(** Nearest integer to [p / q] for [0 <= p] and [0 < q], ties to even. *)
Definition round_half_even (p q : Z) : Z :=
  let (d, r) := Z.div_eucl p q in
  match (2 * r) ?= q with
  | Lt => d
  | Gt => d + 1
  | Eq => if Z.even d then d else d + 1
  end.

(** [m * 2^e * 100], rounded to an integer. *)
Definition hundredths (m : positive) (e : Z) : Z :=
  if 0 <=? e then Z.shiftl (Z.pos m) e * 100
  else round_half_even (Z.pos m * 100) (Z.shiftl 1 (- e)).

Definition decimal (n : Z) : string :=
  NilZero.string_of_uint (N.to_uint (Z.to_N n)).

Definition two_digits (n : Z) : string :=
  decimal (n / 10) ++ decimal (n mod 10).

Definition fixed2 (negative : bool) (h : Z) : string :=
  (if negative then "-" else "") ++ decimal (h / 100) ++ "." ++ two_digits (h mod 100).

Definition fmt_f2 (x : float) : string :=
  match Prim2SF x with
  | S754_nan => "NaN"
  | S754_infinity s => if s then "-Inf" else "+Inf"
  | S754_zero s => fixed2 s 0
  | S754_finite s m e => fixed2 s (hundredths m e)
  end.

(** *** Dynamic values

    What an [interface{}] delivered by the SNMP library may hold: the
    dynamic type is the constructor, the payload its argument. *)
Inductive value : Type :=
| VNil
| VBool (b : bool)
| VInt (n : Z)
| VInt32 (n : Z)
| VInt64 (n : Z)
| VUint (n : Z)
| VUint32 (n : Z)
| VUint64 (n : Z)
| VFloat32 (x : float)
| VFloat64 (x : float)
| VString (s : string)
| VBytes (b : list Byte.byte).

(** [v.([]uint8)] in its comma-ok form: [None] stands for [ok == false]. *)
Definition assert_bytes (v : value) : option (list Byte.byte) :=
  match v with
  | VBytes b => Some b
  | _ => None
  end.

(** [v.(int)] in its comma-ok form. *)
Definition assert_int (v : value) : option Z :=
  match v with
  | VInt n => Some n
  | _ => None
  end.

Definition error : Type := string.

(** ** The Sensu plugin SDK: check states and the plugin description *)
Module sensu.

Definition CheckStateOK : Z := 0.
Definition CheckStateWarning : Z := 1.
Definition CheckStateCritical : Z := 2.
Definition CheckStateUnknown : Z := 3.

Record PluginConfig : Type := mkPluginConfig {
  Name : string;
  Short : string;
  Keyspace : string
}.

End sensu.

(** ** The SNMP library: packets, the client record and the wire *)
Module gosnmp.

Inductive SnmpVersion : Type := Version1 | Version2c | Version3.

Record SnmpPDU : Type := mkPDU {
  Name : string;
  Value : value
}.

Record SnmpPacket : Type := mkPacket {
  Variables : list SnmpPDU
}.

Inductive conn : Type :=
| NoConn
| Open
| Closed.

(** The fields of the client record that the check touches. *)
Record GoSNMP : Type := mkGoSNMP {
  Target : string;
  Community : string;
  Version : SnmpVersion;
  Conn : conn
}.

Definition with_Target (t : string) (g : GoSNMP) : GoSNMP :=
  mkGoSNMP t (Community g) (Version g) (Conn g).
Definition with_Community (c : string) (g : GoSNMP) : GoSNMP :=
  mkGoSNMP (Target g) c (Version g) (Conn g).
Definition with_Version (v : SnmpVersion) (g : GoSNMP) : GoSNMP :=
  mkGoSNMP (Target g) (Community g) v (Conn g).
Definition with_Conn (c : conn) (g : GoSNMP) : GoSNMP :=
  mkGoSNMP (Target g) (Community g) (Version g) c.

End gosnmp.

(** What happens on the network, in order. *)
Inductive event : Type :=
| EvConnect (target community : string) (version : gosnmp.SnmpVersion)
| EvGet (oids : list string)
| EvClose.

(** The device and the network between it and the check: whether a
    connection to a target can be made, and what a read of some identifiers
    returns ([inr] is a failed read). *)
Record Agent : Type := mkAgent {
  dial : string -> string -> gosnmp.SnmpVersion -> option error;
  answer : list string -> gosnmp.SnmpPacket + error
}.

Record World : Type := mkWorld {
  agent : Agent;
  Default : gosnmp.GoSNMP;
  stdout : string;
  wire : list event
}.

Definition set_Default (g : gosnmp.GoSNMP) (w : World) : World :=
  mkWorld (agent w) g (stdout w) (wire w).
Definition put_stdout (s : string) (w : World) : World :=
  mkWorld (agent w) (Default w) (stdout w ++ s) (wire w).
Definition log (e : event) (w : World) : World :=
  mkWorld (agent w) (Default w) (stdout w) (wire w ++ [e])%list.

(** ** The monad of Go function bodies *)

Inductive panic : Type :=
| IndexOutOfRange (index length : nat).

Inductive outcome (A : Type) : Type :=
| Returned (a : A)
| Panicked (p : panic).
Arguments Returned {A} a.
Arguments Panicked {A} p.

Definition Go (A : Type) : Type := World -> World * outcome A.

Definition ret {A} (a : A) : Go A := fun w => (w, Returned a).

Definition bind {A B} (c : Go A) (k : A -> Go B) : Go B :=
  fun w =>
    match c w with
    | (w', Returned a) => k a w'
    | (w', Panicked p) => (w', Panicked p)
    end.

Declare Scope go_scope.
Delimit Scope go_scope with go.
Notation "x <- c ;; k" := (bind c (fun x => k))
  (at level 61, c at next level, right associativity) : go_scope.
Notation "c ;; k" := (bind c (fun _ => k))
  (at level 61, right associativity) : go_scope.
Local Open Scope go_scope.

(** [defer d] followed by the rest of the function body: [d] runs when the
    body is left, by a return or by a panic, and the body's outcome stands. *)
Definition defer {A} (d : Go unit) (body : Go A) : Go A :=
  fun w =>
    let (w', r) := body w in
    (fst (d w'), r).

(** [s[i]] on a slice: a run-time panic outside the bounds. *)
Definition index {A} (s : list A) (i : nat) : Go A :=
  fun w =>
    match nth_error s i with
    | Some a => (w, Returned a)
    | None => (w, Panicked (IndexOutOfRange i (List.length s)))
    end.

Definition Printf (s : string) : Go unit :=
  fun w => (put_stdout s w, Returned tt).

Definition modify_Default (f : gosnmp.GoSNMP -> gosnmp.GoSNMP) : Go unit :=
  fun w => (set_Default (f (Default w)) w, Returned tt).

(** [gosnmp.Default.Connect()]: one dial with the configured parameters; the
    connection handle is set when it succeeds. *)
Definition Connect : Go (option error) :=
  fun w =>
    let g := Default w in
    let w1 := log (EvConnect (gosnmp.Target g) (gosnmp.Community g) (gosnmp.Version g)) w in
    match dial (agent w) (gosnmp.Target g) (gosnmp.Community g) (gosnmp.Version g) with
    | Some err => (w1, Returned (Some err))
    | None => (set_Default (gosnmp.with_Conn gosnmp.Open g) w1, Returned None)
    end.

(** [gosnmp.Default.Conn.Close()]. *)
Definition Close : Go unit :=
  fun w =>
    (set_Default (gosnmp.with_Conn gosnmp.Closed (Default w)) (log EvClose w), Returned tt).

(** [gosnmp.Default.Get(oids)]: one request, one response or an error. *)
Definition Get (oids : list string) : Go (gosnmp.SnmpPacket + error) :=
  fun w => (log (EvGet oids) w, Returned (answer (agent w) oids)).

(** ** [main.go] *)

Record Config : Type := mkConfig {
  PluginConfig : sensu.PluginConfig;
  Target : string;
  Community : string;
  Warning : float;
  Critical : float
}.

Definition IP : Type := list Byte.byte.

Section Check.

(** [net.ParseIP] of the Go standard library: [None] is the nil address
    returned for a text that is not an IPv4 or IPv6 address. *)
Variable ParseIP : string -> option IP.

Definition checkArgs (plugin : Config) : Go (Z * option error) :=
  (* target is a required argument *)
  if String.eqb (Target plugin) "" then
    ret (sensu.CheckStateCritical, Some "target unit must be specified.")
  else
  (* target must be an IP address *)
  match ParseIP (Target plugin) with
  | None => ret (sensu.CheckStateCritical, Some "target must be an IP address.")
  | Some _ => ret (sensu.CheckStateOK, None)
  end.

End Check.

Definition oids : list string :=
  [".1.3.6.1.2.1.1.6.0"; ".1.3.6.1.4.1.20916.1.7.1.1.1.1.0"; ".1.3.6.1.4.1.20916.1.7.1.2.1.1.0"].

Definition executeCheck (plugin : Config) : Go (Z * option error) :=
  let name := sensu.Name (PluginConfig plugin) in
  (* configure the SNMP connection *)
  modify_Default (gosnmp.with_Target (Target plugin)) ;;
  modify_Default (gosnmp.with_Community (Community plugin)) ;;
  modify_Default (gosnmp.with_Version gosnmp.Version1) ;;
  (* make the connection *)
  err <- Connect ;;
  match err with
  | Some _ =>
      Printf (name ++ " CRITICAL: failed to connect to tempager." ++ LF) ;;
      ret (sensu.CheckStateCritical, None)
  | None =>
  defer Close (
  (* gather the required values (internal sensor / external sensor) *)
  got <- Get oids ;;
  match got with
  | inr _ =>
      Printf (name ++ " CRITICAL: failed to gather oids." ++ LF) ;;
      ret (sensu.CheckStateCritical, None)
  | inl result =>
  (* validate the location oid *)
  v0 <- index (gosnmp.Variables result) 0 ;;
  match assert_bytes (gosnmp.Value v0) with
  | None =>
      Printf (name ++ " CRITICAL: failed to read location." ++ LF) ;;
      ret (sensu.CheckStateCritical, None)
  | Some location_oid =>
  (* validate the internal temperature oid *)
  v1 <- index (gosnmp.Variables result) 1 ;;
  match assert_int (gosnmp.Value v1) with
  | None =>
      Printf (name ++ " CRITICAL: failed to read internal temperature." ++ LF) ;;
      ret (sensu.CheckStateCritical, None)
  | Some inttemp_oid =>
  (* validate the external temperature oid *)
  v2 <- index (gosnmp.Variables result) 2 ;;
  match assert_int (gosnmp.Value v2) with
  | None =>
      Printf (name ++ " CRITICAL: failed to read external temperature." ++ LF) ;;
      ret (sensu.CheckStateCritical, None)
  | Some exttemp_oid =>
  (* convert oid values into something usable *)
  let location := string_of_list_byte location_oid in
  let internal_temperature := (float64_of_int inttemp_oid / 100)%float in
  let external_temperature := (float64_of_int exttemp_oid / 100)%float in
  (* construct the performance data *)
  let perfData :=
    "tempager_internal=" ++ fmt_f2 internal_temperature ++
    ", tempager_external=" ++ fmt_f2 external_temperature in
  let t :=
    location ++ " temperature is " ++ fmt_f2 external_temperature ++ "c | " ++
    perfData ++ LF in
  if (Critical plugin <? external_temperature)%float then
    Printf (name ++ " CRITICAL: " ++ t) ;;
    ret (sensu.CheckStateCritical, None)
  else if (Warning plugin <? external_temperature)%float then
    Printf (name ++ " WARNING: " ++ t) ;;
    ret (sensu.CheckStateWarning, None)
  else
    Printf (name ++ " OK: " ++ t) ;;
    ret (sensu.CheckStateOK, None)
  end end end end ) end.

(** The package-level [plugin] once the flags are bound to a target and a
    community, the thresholds left at their defaults 35.0 and 40.0. *)
Definition plugin_defaults (target community : string) : Config :=
  mkConfig
    (sensu.mkPluginConfig
       "check-tempager-3e-temperature"
       "A simple temperature monitor check written in Go"
       "sensu.io/plugins/check-tempager-3e-temperature/config")
    target community 35 40.

(** A world in which nothing has happened yet: the library's default
    client, no connection, nothing printed, nothing on the wire. *)
Definition boot (a : Agent) : World :=
  mkWorld a (gosnmp.mkGoSNMP "" "public" gosnmp.Version2c gosnmp.NoConn) "" [].

(** An agent that accepts the connection and answers every read with the
    given values, one variable each. *)
Definition answering (vs : list value) : Agent :=
  mkAgent (fun _ _ _ => None)
          (fun ids => inl (gosnmp.mkPacket (map (fun v => gosnmp.mkPDU "" v) vs))).

(** ** An executable [net.ParseIP]

    The textual forms the standard library accepts: dotted-decimal IPv4
    (four fields, each at most 255, no leading zero), and colon-hexadecimal
    IPv6 with at most one [::] and an optional dotted quad in the last four
    bytes; a zone suffix is refused. The result is the 16-byte form. *)
Module net.

Definition is_char (c : ascii) (d : string) : bool :=
  match d with
  | String d0 EmptyString => Ascii.eqb c d0
  | _ => false
  end.

Definition digit (c : ascii) : option Z :=
  let n := Z.of_N (N_of_ascii c) in
  if (48 <=? n) && (n <=? 57) then Some (n - 48) else None.

Definition hexdigit (c : ascii) : option Z :=
  let n := Z.of_N (N_of_ascii c) in
  if (48 <=? n) && (n <=? 57) then Some (n - 48)
  else if (97 <=? n) && (n <=? 102) then Some (n - 97 + 10)
  else if (65 <=? n) && (n <=? 70) then Some (n - 65 + 10)
  else None.

(** [parseIPv4Fields]: [first] and [prev_dot] say whether the character
    is the first one and whether a dot precedes it. *)
Fixpoint parseIPv4Fields (s : string) (first prev_dot : bool)
    (val : Z) (digLen pos : nat) (fields : list Z) : option (list Z) :=
  match s with
  | EmptyString =>
      if (pos <? 3)%nat then None else Some (fields ++ [val])%list
  | String c rest =>
      match digit c with
      | Some d =>
          if (digLen =? 1)%nat && (val =? 0) then None
          else
            let val' := val * 10 + d in
            if 255 <? val' then None
            else parseIPv4Fields rest false false val' (S digLen) pos fields
      | None =>
          if is_char c "." then
            if first || prev_dot || String.eqb rest "" then None
            else if (pos =? 3)%nat then None
            else parseIPv4Fields rest false true 0 0%nat (S pos) (fields ++ [val])%list
          else None
      end
  end.

Definition parseIPv4 (s : string) : option (list Z) :=
  match parseIPv4Fields s true false 0 0%nat 0%nat [] with
  | Some f => Some (repeat 0 10 ++ [255; 255] ++ f)%list
  | None => None
  end.

(** One group of hexadecimal digits: how many were read, their value and
    what follows them. *)
Fixpoint hexGroup (s : string) (off : nat) (acc : Z) : option (nat * Z * string) :=
  match s with
  | EmptyString => Some (off, acc, s)
  | String c rest =>
      match hexdigit c with
      | Some d =>
          let acc' := acc * 16 + d in
          if (3 <? off)%nat then None
          else if 65535 <? acc' then None
          else hexGroup rest (S off) acc'
      | None => Some (off, acc, s)
      end
  end.

Definition starts_with (s : string) (d : string) : bool :=
  match s with
  | String c _ => is_char c d
  | EmptyString => false
  end.

Definition tail (s : string) : string :=
  match s with
  | String _ rest => rest
  | EmptyString => EmptyString
  end.

(** The loop of [parseIPv6] over the groups: [ip] holds the bytes written
    so far, [ellipsis] where a [::] was seen. It yields the bytes, the
    ellipsis and the unread text. *)
Fixpoint groups (fuel : nat) (s : string) (ip : list Z) (ellipsis : option nat)
    : option (list Z * option nat * string) :=
  if (16 <=? List.length ip)%nat then Some (ip, ellipsis, s) else
  match fuel with
  | O => None
  | S fuel' =>
      match hexGroup s 0 0 with
      | None => None
      | Some (O, _, _) => None
      | Some (_, acc, after) =>
          if starts_with after "." then
            match ellipsis with
            | None => if (List.length ip =? 12)%nat then
                        match parseIPv4Fields s true false 0 0%nat 0%nat [] with
                        | Some f => Some ((ip ++ f)%list, ellipsis, "")
                        | None => None
                        end
                      else None
            | Some _ => if (16 <? List.length ip + 4)%nat then None else
                        match parseIPv4Fields s true false 0 0%nat 0%nat [] with
                        | Some f => Some ((ip ++ f)%list, ellipsis, "")
                        | None => None
                        end
            end
          else
            let ip' := (ip ++ [acc / 256; acc mod 256])%list in
            match after with
            | EmptyString => Some (ip', ellipsis, "")
            | String c more =>
                if negb (is_char c ":") then None
                else if String.eqb more "" then None
                else if starts_with more ":" then
                  match ellipsis with
                  | Some _ => None
                  | None =>
                      let e := Some (List.length ip') in
                      if String.eqb (tail more) "" then Some (ip', e, "")
                      else groups fuel' (tail more) ip' e
                  end
                else groups fuel' more ip' ellipsis
            end
      end
  end.

Fixpoint contains (s : string) (d : string) : bool :=
  match s with
  | EmptyString => false
  | String c rest => is_char c d || contains rest d
  end.

Definition finish (r : list Z * option nat * string) : option (list Z) :=
  let '(ip, ellipsis, rest) := r in
  if negb (String.eqb rest "") then None
  else if (List.length ip <? 16)%nat then
    match ellipsis with
    | None => None
    | Some e => Some (firstn e ip ++ repeat 0 (16 - List.length ip) ++ skipn e ip)%list
    end
  else
    match ellipsis with
    | None => Some ip
    | Some _ => None
    end.

Definition parseIPv6 (s : string) : option (list Z) :=
  if contains s "%" then None
  else if starts_with s ":" && starts_with (tail s) ":" then
    let s' := tail (tail s) in
    if String.eqb s' "" then Some (repeat 0 16)
    else match groups 9 s' [] (Some 0%nat) with
         | Some r => finish r
         | None => None
         end
  else match groups 9 s [] None with
       | Some r => finish r
       | None => None
       end.

(** The first dot, colon or percent sign decides how the text is read. *)
Fixpoint dispatch (s rest : string) : option (list Z) :=
  match rest with
  | EmptyString => None
  | String c rest' =>
      if is_char c "." then parseIPv4 s
      else if is_char c ":" then parseIPv6 s
      else if is_char c "%" then None
      else dispatch s rest'
  end.

Definition ParseIP (s : string) : option IP :=
  match dispatch s s with
  | Some bs => Some (map (fun b => match Byte.of_N (Z.to_N b) with
                                   | Some x => x
                                   | None => Byte.x00
                                   end) bs)
  | None => None
  end.

End net.

(** ** Reading a run *)

Definition values (p : gosnmp.SnmpPacket) : list value :=
  map gosnmp.Value (gosnmp.Variables p).

Definition returned_state (r : World * outcome (Z * option error)) : option Z :=
  match snd r with
  | Returned (st, _) => Some st
  | Panicked _ => None
  end.

Definition returned_error (r : World * outcome (Z * option error)) : option error :=
  match snd r with
  | Returned (_, e) => e
  | Panicked _ => None
  end.

(** The client record as the check configures it, the connection handle
    left as it was. *)
Definition configured (plugin : Config) (w : World) : gosnmp.GoSNMP :=
  gosnmp.mkGoSNMP (Target plugin) (Community plugin) gosnmp.Version1
    (gosnmp.Conn (Default w)).

Definition connect_event (plugin : Config) : event :=
  EvConnect (Target plugin) (Community plugin) gosnmp.Version1.

Definition name_of (plugin : Config) : string := sensu.Name (PluginConfig plugin).

(** The scaled readings, as [executeCheck] binds them. *)
Definition external_temperature (exttemp_oid : Z) : float :=
  (float64_of_int exttemp_oid / 100)%float.

Definition internal_temperature (inttemp_oid : Z) : float :=
  (float64_of_int inttemp_oid / 100)%float.

(** The three severities and how a run shows them. *)
Inductive Severity : Type := OK | WARNING | CRITICAL.

Definition state_of (s : Severity) : Z :=
  match s with
  | OK => sensu.CheckStateOK
  | WARNING => sensu.CheckStateWarning
  | CRITICAL => sensu.CheckStateCritical
  end.

Definition label_of (s : Severity) : string :=
  match s with
  | OK => "OK"
  | WARNING => "WARNING"
  | CRITICAL => "CRITICAL"
  end.

(** The severity decision in the specification's words: first match wins,
    on strict comparisons. *)
Definition severity_spec (external warning critical : float) : Severity :=
  if (critical <? external)%float then CRITICAL
  else if (warning <? external)%float then WARNING
  else OK.

(** The metrics string and the human line in the specification's words. *)
Definition metrics_spec (internal external : float) : string :=
  "tempager_internal=" ++ fmt_f2 internal ++ ", tempager_external=" ++ fmt_f2 external.

Definition human_line_spec (location : string) (internal external : float) : string :=
  location ++ " temperature is " ++ fmt_f2 external ++ "c | " ++
  metrics_spec internal external.

(** The line a run prints for a reading: plugin name, severity label, human
    line, line feed. *)
Definition status_line (plugin : Config) (s : Severity)
    (location_oid : list Byte.byte) (inttemp_oid exttemp_oid : Z) : string :=
  name_of plugin ++ " " ++ label_of s ++ ": " ++
  human_line_spec (string_of_list_byte location_oid)
    (internal_temperature inttemp_oid) (external_temperature exttemp_oid) ++ LF.

(** The line a run prints for a failure. *)
Definition failure_line (plugin : Config) (what : string) : string :=
  name_of plugin ++ " CRITICAL: " ++ what ++ LF.

(** The world a run leaves once the connection was made: the client is
    configured, the connection closed, one request went out. *)
Definition closed_with (plugin : Config) (w : World) (out : string) : World :=
  mkWorld (agent w)
    (gosnmp.with_Conn gosnmp.Closed (configured plugin w))
    (stdout w ++ out)
    (wire w ++ [connect_event plugin; EvGet oids; EvClose])%list.

Definition connects (plugin : Config) (w : World) : Prop :=
  dial (agent w) (Target plugin) (Community plugin) gosnmp.Version1 = None.

Definition reads (w : World) (vs : list value) : Prop :=
  exists p, answer (agent w) oids = inl p /\ values p = vs.

(** The exact rational value of a finite binary64. *)
Definition exact (x : float) : option Q :=
  match Prim2SF x with
  | S754_zero _ => Some 0%Q
  | S754_finite s m e =>
      Some ((if s then -1 else 1) * inject_Z (Z.pos m) * Qpower 2 e)%Q
  | _ => None
  end.

(** A count of hundredths written with two decimals. *)
Definition hundredths_text (n : Z) : string := fixed2 (n <? 0) (Z.abs n).

Definition prints_its_hundredths (n : Z) : bool :=
  match Prim2SF (external_temperature n) with
  | S754_zero s => (n =? 0) && negb s
  | S754_finite s m e => (hundredths m e =? Z.abs n) && Bool.eqb s (n <? 0)
  | _ => false
  end.

Fixpoint upto (k : nat) (lo : Z) : list Z :=
  match k with
  | O => []
  | S k' => lo :: upto k' (lo + 1)
  end.

(** The ways a response can look to the three type checks, in the order in
    which the check meets them. *)
Inductive shape : list value -> Prop :=
| ShEmpty : shape []
| ShBadLocation v0 rest : assert_bytes v0 = None -> shape (v0 :: rest)
| ShOne l : shape [VBytes l]
| ShBadInternal l v1 rest : assert_int v1 = None -> shape (VBytes l :: v1 :: rest)
| ShTwo l i : shape [VBytes l; VInt i]
| ShBadExternal l i v2 rest : assert_int v2 = None -> shape (VBytes l :: VInt i :: v2 :: rest)
| ShReading l i x rest : shape (VBytes l :: VInt i :: VInt x :: rest).

(** A run that fails: it returns CRITICAL with no Go error, prints the one
    failure line, and the network saw exactly [traffic]. *)
Definition fails_critical (plugin : Config) (w : World) (what : string)
    (traffic : list event) : Prop :=
  snd (executeCheck plugin w) = Returned (sensu.CheckStateCritical, None) /\
  stdout (fst (executeCheck plugin w)) = stdout w ++ failure_line plugin what /\
  wire (fst (executeCheck plugin w)) = (wire w ++ traffic)%list.

(** ** Sample configurations, agents and worlds *)

Definition sample_plugin : Config := plugin_defaults "10.0.0.5" "public".

Definition sample_world (inttemp_oid exttemp_oid : Z) : World :=
  boot (answering [VBytes (list_byte_of_string "Server Room");
                   VInt inttemp_oid; VInt exttemp_oid]).

(** An agent that refuses the connection. *)
Definition unreachable : Agent :=
  mkAgent (fun _ _ _ => Some "request timeout") (fun _ => inr "no connection").

(** An agent that accepts the connection and fails the read. *)
Definition mute : Agent :=
  mkAgent (fun _ _ _ => None) (fun _ => inr "request timeout").

(** Thresholds the wrong way round: warning 40.0, critical 35.0. *)
Definition crossed_plugin : Config :=
  mkConfig (PluginConfig sample_plugin) "10.0.0.5" "public" 40 35.

(** The end-to-end scenario: target 10.0.0.5, community public, thresholds
    35.0 and 40.0, a device answering Server Room, 2850 and 3620. *)
Definition scenario : World * outcome (Z * option error) :=
  executeCheck sample_plugin (sample_world 2850 3620).

(** ** Vocabulary of the further properties *)

(** The scaled reading rises from [n] to [n + 1]. *)
Definition rises_at (n : Z) : bool :=
  (external_temperature n <? external_temperature (n + 1))%float.

(** Raw readings on sixteen bits, sign included. *)
Definition in_range (n : Z) : Prop := -32767 <= n <= 32767.

(** A threshold no reading is above: not a number, or plus infinity. *)
Definition never_exceeded (t : float) : Prop := t = nan \/ t = infinity.

(** An agent that answers under the requested names and adds a variable
    nobody asked for. *)
Definition chatty : Agent :=
  mkAgent (fun _ _ _ => None)
    (fun _ => inl (gosnmp.mkPacket
       [gosnmp.mkPDU ".1.3.6.1.2.1.1.6.0" (VBytes (list_byte_of_string "Server Room"));
        gosnmp.mkPDU ".1.3.6.1.4.1.20916.1.7.1.1.1.1.0" (VInt 2850);
        gosnmp.mkPDU ".1.3.6.1.4.1.20916.1.7.1.2.1.1.0" (VInt 3620);
        gosnmp.mkPDU ".1.3.6.1.2.1.1.5.0" (VString "tempager")])).

(** A plugin whose critical threshold is not a number. *)
Definition nan_plugin : Config :=
  mkConfig (PluginConfig sample_plugin) "10.0.0.5" "public" 35 nan.

(** * Properties *)

Lemma append_assoc (a b c : string) : (a ++ b) ++ c = a ++ b ++ c.
Proof.
  induction a as [|x a IH]; cbn [append]; [reflexivity|].
  now rewrite IH.
Qed.

Lemma append_nil_r (a : string) : a ++ "" = a.
Proof.
  induction a as [|x a IH]; cbn [append]; [reflexivity|].
  now rewrite IH.
Qed.

Lemma app_snoc3 {A} (l : list A) (x y z : A) :
  (((l ++ [x]) ++ [y]) ++ [z] = l ++ [x; y; z])%list.
Proof. now rewrite <- !app_assoc. Qed.

Ltac fields :=
  unfold set_Default, put_stdout, log,
    gosnmp.with_Target, gosnmp.with_Community, gosnmp.with_Version, gosnmp.with_Conn;
  cbn [agent Default stdout wire fst snd append
       gosnmp.Target gosnmp.Community gosnmp.Version gosnmp.Conn].

Ltac run_check :=
  unfold executeCheck, bind, defer, modify_Default, Connect, Get, index, Printf, ret, Close;
  fields.

Ltac world_eq :=
  unfold closed_with, configured, connect_event, failure_line, name_of;
  fields;
  rewrite ?app_snoc3, <- ?app_assoc; cbn [app]; try reflexivity.

(** Splitting a packet by the values it carries. *)
Ltac open_packet p Hv :=
  let n0 := fresh "n" in let n1 := fresh "n" in let n2 := fresh "n" in
  let u0 := fresh "u" in let u1 := fresh "u" in let u2 := fresh "u" in
  let more := fresh "more" in
  destruct p as [[|[n0 u0] [|[n1 u1] [|[n2 u2] more]]]];
  cbn [values map gosnmp.Variables gosnmp.Value] in Hv;
  try discriminate Hv; inversion Hv; subst; clear Hv.

Section Runs.

Variables (plugin : Config) (w : World).

Lemma executeCheck_no_connection (err : error) :
  dial (agent w) (Target plugin) (Community plugin) gosnmp.Version1 = Some err ->
  executeCheck plugin w =
    (mkWorld (agent w) (configured plugin w)
       (stdout w ++ failure_line plugin "failed to connect to tempager.")
       (wire w ++ [connect_event plugin])%list,
     Returned (sensu.CheckStateCritical, None)).
Proof.
  intros Hd. run_check. rewrite Hd. reflexivity.
Qed.

Hypothesis Hdial : connects plugin w.

Lemma executeCheck_no_answer (err : error) :
  answer (agent w) oids = inr err ->
  executeCheck plugin w =
    (closed_with plugin w (failure_line plugin "failed to gather oids."),
     Returned (sensu.CheckStateCritical, None)).
Proof.
  intros Ha. run_check. rewrite Hdial. fields. rewrite Ha. world_eq.
Qed.

Variable p : gosnmp.SnmpPacket.
Hypothesis Hanswer : answer (agent w) oids = inl p.

Ltac start Hv := run_check; rewrite Hdial; fields; rewrite Hanswer; open_packet p Hv;
  cbn [nth_error gosnmp.Variables gosnmp.Value assert_bytes assert_int List.length].

Lemma executeCheck_empty :
  values p = [] ->
  executeCheck plugin w = (closed_with plugin w "", Panicked (IndexOutOfRange 0 0)).
Proof.
  intros Hv. start Hv. world_eq. now rewrite append_nil_r.
Qed.

Lemma executeCheck_bad_location (v0 : value) (rest : list value) :
  values p = v0 :: rest -> assert_bytes v0 = None ->
  executeCheck plugin w =
    (closed_with plugin w (failure_line plugin "failed to read location."),
     Returned (sensu.CheckStateCritical, None)).
Proof.
  intros Hv H0. start Hv; rewrite H0; world_eq.
Qed.

Lemma executeCheck_one (l : list Byte.byte) :
  values p = [VBytes l] ->
  executeCheck plugin w = (closed_with plugin w "", Panicked (IndexOutOfRange 1 1)).
Proof.
  intros Hv. start Hv. world_eq. now rewrite append_nil_r.
Qed.

Lemma executeCheck_bad_internal (l : list Byte.byte) (v1 : value) (rest : list value) :
  values p = VBytes l :: v1 :: rest -> assert_int v1 = None ->
  executeCheck plugin w =
    (closed_with plugin w (failure_line plugin "failed to read internal temperature."),
     Returned (sensu.CheckStateCritical, None)).
Proof.
  intros Hv H1. start Hv; rewrite H1; world_eq.
Qed.

Lemma executeCheck_two (l : list Byte.byte) (i : Z) :
  values p = [VBytes l; VInt i] ->
  executeCheck plugin w = (closed_with plugin w "", Panicked (IndexOutOfRange 2 2)).
Proof.
  intros Hv. start Hv. world_eq. now rewrite append_nil_r.
Qed.

Lemma executeCheck_bad_external (l : list Byte.byte) (i : Z) (v2 : value) (rest : list value) :
  values p = VBytes l :: VInt i :: v2 :: rest -> assert_int v2 = None ->
  executeCheck plugin w =
    (closed_with plugin w (failure_line plugin "failed to read external temperature."),
     Returned (sensu.CheckStateCritical, None)).
Proof.
  intros Hv H2. start Hv; rewrite H2; world_eq.
Qed.

Lemma executeCheck_reading (l : list Byte.byte) (i x : Z) (rest : list value) :
  values p = VBytes l :: VInt i :: VInt x :: rest ->
  let s := severity_spec (external_temperature x) (Warning plugin) (Critical plugin) in
  executeCheck plugin w =
    (closed_with plugin w (status_line plugin s l i x), Returned (state_of s, None)).
Proof.
  intros Hv s. subst s. start Hv.
  unfold severity_spec, external_temperature.
  destruct (Critical plugin <? float64_of_int x / 100)%float;
    [|destruct (Warning plugin <? float64_of_int x / 100)%float];
    world_eq;
    unfold status_line, human_line_spec, metrics_spec, name_of,
      internal_temperature, external_temperature;
    cbn [label_of state_of append];
    repeat (rewrite append_assoc; cbn [append]);
    reflexivity.
Qed.

End Runs.

(** ** The order on binary64 values *)

Lemma SFcompare_finite (s1 s2 : bool) (m1 m2 : positive) (e1 e2 : Z) :
  SFcompare (S754_finite s1 m1 e1) (S754_finite s2 m2 e2) =
  Some (if s1
        then if s2
             then match e1 ?= e2 with
                  | Eq => CompOpp (m1 ?= m2)%positive
                  | Lt => Gt
                  | Gt => Lt
                  end
             else Lt
        else if s2
             then Gt
             else match e1 ?= e2 with
                  | Eq => (m1 ?= m2)%positive
                  | Lt => Lt
                  | Gt => Gt
                  end).
Proof. reflexivity. Qed.

Lemma SFltb_irrefl (x : spec_float) : SFltb x x = false.
Proof.
  unfold SFltb. destruct x as [s|s| |s m e]; try reflexivity; try (destruct s; reflexivity).
  rewrite SFcompare_finite, Z.compare_refl, Pos.compare_refl.
  destruct s; reflexivity.
Qed.

Lemma SFleb_SFltb_trans (a b c : spec_float) :
  SFleb a b = true -> SFltb b c = true -> SFltb a c = true.
Proof.
  unfold SFleb, SFltb.
  destruct a as [sa|sa| |sa ma ea], b as [sb|sb| |sb mb eb], c as [sc|sc| |sc mc ec];
    rewrite ?SFcompare_finite;
    try (cbn [SFcompare]; repeat match goal with s : bool |- _ => destruct s end;
         intros; (reflexivity || discriminate)).
  destruct sa, sb, sc; try (intros; (reflexivity || discriminate));
    destruct (Z.compare_spec ea eb), (Z.compare_spec eb ec), (Z.compare_spec ea ec);
    destruct (Pos.compare_spec ma mb), (Pos.compare_spec mb mc), (Pos.compare_spec ma mc);
    cbn [CompOpp]; intros; try reflexivity; try discriminate; exfalso; lia.
Qed.

Lemma ltb_irrefl (x : float) : (x <? x)%float = false.
Proof. rewrite ltb_spec. apply SFltb_irrefl. Qed.

Lemma leb_ltb_trans (a b c : float) :
  (a <=? b)%float = true -> (b <? c)%float = true -> (a <? c)%float = true.
Proof. rewrite leb_spec, !ltb_spec. apply SFleb_SFltb_trans. Qed.

(** ** Runs on a reading *)

Lemma reading_run (plugin : Config) (w : World) (l : list Byte.byte) (i x : Z)
    (rest : list value) :
  connects plugin w ->
  reads w (VBytes l :: VInt i :: VInt x :: rest) ->
  executeCheck plugin w =
    (closed_with plugin w
       (status_line plugin
          (severity_spec (external_temperature x) (Warning plugin) (Critical plugin)) l i x),
     Returned
       (state_of (severity_spec (external_temperature x) (Warning plugin) (Critical plugin)),
        None)).
Proof.
  intros Hd [p [Ha Hv]]. exact (executeCheck_reading plugin w Hd p Ha l i x rest Hv).
Qed.

Lemma answering_reads (vs : list value) :
  reads (boot (answering vs)) vs.
Proof.
  exists (gosnmp.mkPacket (map (fun v => gosnmp.mkPDU "" v) vs)). split; [reflexivity|].
  unfold values. cbn [gosnmp.Variables]. rewrite map_map. cbn [gosnmp.Value]. apply map_id.
Qed.

Lemma shape_total (vs : list value) : shape vs.
Proof.
  destruct vs as [|v0 vs]; [apply ShEmpty|].
  destruct (assert_bytes v0) as [l|] eqn:E0; [|now apply ShBadLocation].
  destruct v0; try discriminate E0. clear E0 l.
  destruct vs as [|v1 vs]; [apply ShOne|].
  destruct (assert_int v1) as [i|] eqn:E1; [|now apply ShBadInternal].
  destruct v1; try discriminate E1. clear E1 i.
  destruct vs as [|v2 vs]; [apply ShTwo|].
  destruct (assert_int v2) as [x|] eqn:E2; [|now apply ShBadExternal].
  destruct v2; try discriminate E2. apply ShReading.
Qed.

(** Every run that connected, by the answer it got: the equation of the
    run replaces the run in the goal. *)
Ltac by_answer plugin w Hd :=
  let p := fresh "p" in let err := fresh "err" in
  let Ha := fresh "Ha" in let Hv := fresh "Hv" in let vs := fresh "vs" in
  destruct (answer (agent w) oids) as [p|err] eqn:Ha;
  [ remember (values p) as vs eqn:Hv; symmetry in Hv;
    destruct (shape_total vs);
    [ rewrite (executeCheck_empty plugin w Hd p Ha Hv)
    | rewrite (executeCheck_bad_location plugin w Hd p Ha _ _ Hv) by assumption
    | rewrite (executeCheck_one plugin w Hd p Ha _ Hv)
    | rewrite (executeCheck_bad_internal plugin w Hd p Ha _ _ _ Hv) by assumption
    | rewrite (executeCheck_two plugin w Hd p Ha _ _ Hv)
    | rewrite (executeCheck_bad_external plugin w Hd p Ha _ _ _ _ Hv) by assumption
    | rewrite (executeCheck_reading plugin w Hd p Ha _ _ _ _ Hv) ]
  | rewrite (executeCheck_no_answer plugin w Hd err Ha) ].

(** Whatever the device answers, a run that connected leaves the world
    closed. *)
Lemma connected_run_world (plugin : Config) (w : World) :
  connects plugin w ->
  exists out, fst (executeCheck plugin w) = closed_with plugin w out.
Proof.
  intros Hd. by_answer plugin w Hd; cbn [fst]; eexists; reflexivity.
Qed.

(** * The check against its specification *)

(** C1. For every external reading and thresholds, a successful run is
    CRITICAL if the external temperature is strictly above the critical
    threshold, otherwise WARNING if it is strictly above the warning
    threshold, otherwise OK; the printed label agrees with the returned
    state. A temperature equal to a threshold does not take that threshold's
    severity: with warning 35.0 and critical 40.0, a reading of 40.00 is
    WARNING and a reading of 35.00 is OK. *)
Theorem C1_severity_first_match_strict :
  forall (plugin : Config) (w : World) (l : list Byte.byte) (i x : Z) (rest : list value),
    connects plugin w ->
    reads w (VBytes l :: VInt i :: VInt x :: rest) ->
    let e := external_temperature x in
    let r := executeCheck plugin w in
    ((Critical plugin <? e)%float = true ->
       returned_state r = Some sensu.CheckStateCritical /\
       stdout (fst r) = stdout w ++ status_line plugin CRITICAL l i x) /\
    ((Critical plugin <? e)%float = false -> (Warning plugin <? e)%float = true ->
       returned_state r = Some sensu.CheckStateWarning /\
       stdout (fst r) = stdout w ++ status_line plugin WARNING l i x) /\
    ((Critical plugin <? e)%float = false -> (Warning plugin <? e)%float = false ->
       returned_state r = Some sensu.CheckStateOK /\
       stdout (fst r) = stdout w ++ status_line plugin OK l i x) /\
    (e = Critical plugin -> returned_state r <> Some sensu.CheckStateCritical) /\
    (e = Warning plugin -> returned_state r <> Some sensu.CheckStateWarning) /\
    (Warning plugin = 35%float -> Critical plugin = 40%float ->
       (x = 4000 -> e = 40%float /\ returned_state r = Some sensu.CheckStateWarning) /\
       (x = 3500 -> e = 35%float /\ returned_state r = Some sensu.CheckStateOK) /\
       (x = 4001 -> returned_state r = Some sensu.CheckStateCritical)).
Proof.
  intros plugin w l i x rest Hd Hr e r.
  subst r. rewrite (reading_run plugin w l i x rest Hd Hr).
  fold e. unfold returned_state, severity_spec. cbn [fst snd closed_with stdout].
  split; [now intros ->|].
  split; [now intros -> ->|].
  split; [now intros -> ->|].
  split.
  { intros <-. rewrite ltb_irrefl.
    destruct (Warning plugin <? e)%float; cbn; discriminate. }
  split.
  { intros <-. rewrite ltb_irrefl.
    destruct (Critical plugin <? e)%float; cbn; discriminate. }
  intros -> ->. subst e.
  split; [|split]; intros ->; [split; reflexivity | split; reflexivity | reflexivity].
Qed.

Lemma sample_connects (vs : list value) : connects sample_plugin (boot (answering vs)).
Proof. reflexivity. Qed.

Lemma C1_witness :
  connects sample_plugin (sample_world 2850 4000) /\
  reads (sample_world 2850 4000)
    [VBytes (list_byte_of_string "Server Room"); VInt 2850; VInt 4000] /\
  returned_state (executeCheck sample_plugin (sample_world 2850 4000)) =
    Some sensu.CheckStateWarning.
Proof.
  split; [reflexivity|]. split; [apply answering_reads|].
  destruct (C1_severity_first_match_strict sample_plugin (sample_world 2850 4000)
              (list_byte_of_string "Server Room") 2850 4000 []
              (sample_connects _) (answering_reads _)) as [_ [H _]].
  exact (proj1 (H eq_refl eq_refl)).
Defined.

(** C2. [checkArgs] fails with the missing-target error exactly when the
    target is empty, with the invalid-target error exactly when the target
    is not empty and [net.ParseIP] refuses it, and returns OK with no error
    exactly when the target is not empty and [net.ParseIP] accepts it; it
    always returns and leaves the world as it found it. *)
Theorem C2_checkArgs_validates_target :
  forall (ParseIP : string -> option IP) (plugin : Config) (w : World),
    let r := checkArgs ParseIP plugin w in
    fst r = w /\
    (snd r = Returned (sensu.CheckStateCritical, Some "target unit must be specified.")
       <-> Target plugin = "") /\
    (snd r = Returned (sensu.CheckStateCritical, Some "target must be an IP address.")
       <-> Target plugin <> "" /\ ParseIP (Target plugin) = None) /\
    (snd r = Returned (sensu.CheckStateOK, None)
       <-> Target plugin <> "" /\ exists ip, ParseIP (Target plugin) = Some ip).
Proof.
  intros ParseIP plugin w r. subst r. unfold checkArgs, ret.
  destruct (String.eqb_spec (Target plugin) "") as [E|E].
  - cbn [fst snd]. split; [reflexivity|].
    split; [tauto|].
    split; (split; [intros H; discriminate H | intros [H _]; contradiction]).
  - destruct (ParseIP (Target plugin)) as [ip|] eqn:P; cbn [fst snd].
    + split; [reflexivity|].
      split; [split; [intros H; discriminate H | contradiction]|].
      split; [split; [intros H; discriminate H | intros [_ H]; discriminate H]|].
      split; [intros _; split; [assumption | now exists ip] | reflexivity].
    + split; [reflexivity|].
      split; [split; [intros H; discriminate H | contradiction]|].
      split; [split; [now split | reflexivity]|].
      split; [intros H; discriminate H | intros [_ [ip H]]; discriminate H].
Qed.

(** [checkArgs] with the executable parser, on an address, on nothing and on
    host names. *)
Example checkArgs_samples (w : World) :
  checkArgs net.ParseIP (plugin_defaults "10.0.0.5" "public") w
    = (w, Returned (sensu.CheckStateOK, None)) /\
  checkArgs net.ParseIP (plugin_defaults "2001:db8::68" "public") w
    = (w, Returned (sensu.CheckStateOK, None)) /\
  checkArgs net.ParseIP (plugin_defaults "" "public") w
    = (w, Returned (sensu.CheckStateCritical, Some "target unit must be specified.")) /\
  checkArgs net.ParseIP (plugin_defaults "not-an-ip" "public") w
    = (w, Returned (sensu.CheckStateCritical, Some "target must be an IP address.")) /\
  checkArgs net.ParseIP (plugin_defaults "tempager.example.org" "public") w
    = (w, Returned (sensu.CheckStateCritical, Some "target must be an IP address.")).
Proof. repeat split. Qed.

(** C3. Every error path is CRITICAL with a short message and is final: a
    validation error carries state CRITICAL and one of the two messages and
    touches nothing; a failed connection, a failed read and each of the three
    failed type checks print their own CRITICAL line and return CRITICAL,
    after exactly one connection attempt and at most one read. *)
Theorem C3_error_paths_are_critical :
  forall (ParseIP : string -> option IP) (plugin : Config) (w : World),
    (forall e, returned_error (checkArgs ParseIP plugin w) = Some e ->
       returned_state (checkArgs ParseIP plugin w) = Some sensu.CheckStateCritical /\
       (e = "target unit must be specified." \/ e = "target must be an IP address.") /\
       fst (checkArgs ParseIP plugin w) = w) /\
    (forall err,
       dial (agent w) (Target plugin) (Community plugin) gosnmp.Version1 = Some err ->
       fails_critical plugin w "failed to connect to tempager." [connect_event plugin]) /\
    (connects plugin w ->
     let traffic := [connect_event plugin; EvGet oids; EvClose] in
     (forall err, answer (agent w) oids = inr err ->
        fails_critical plugin w "failed to gather oids." traffic) /\
     (forall v0 rest, reads w (v0 :: rest) -> assert_bytes v0 = None ->
        fails_critical plugin w "failed to read location." traffic) /\
     (forall l v1 rest, reads w (VBytes l :: v1 :: rest) -> assert_int v1 = None ->
        fails_critical plugin w "failed to read internal temperature." traffic) /\
     (forall l i v2 rest, reads w (VBytes l :: VInt i :: v2 :: rest) -> assert_int v2 = None ->
        fails_critical plugin w "failed to read external temperature." traffic)).
Proof.
  intros ParseIP plugin w. split; [|split].
  - intros e. unfold checkArgs, ret, returned_error, returned_state.
    destruct (String.eqb (Target plugin) "").
    + cbn [fst snd]. intros [= <-]. auto.
    + destruct (ParseIP (Target plugin)); cbn [fst snd]; [discriminate|].
      intros [= <-]. auto.
  - intros err Hd. unfold fails_critical.
    rewrite (executeCheck_no_connection plugin w err Hd). now cbn [fst snd stdout wire].
  - intros Hd traffic. subst traffic. unfold fails_critical.
    split; [|split; [|split]].
    + intros err Ha. rewrite (executeCheck_no_answer plugin w Hd err Ha).
      now cbn [fst snd stdout wire closed_with].
    + intros v0 rest [p [Ha Hv]] H0.
      rewrite (executeCheck_bad_location plugin w Hd p Ha v0 rest Hv H0).
      now cbn [fst snd stdout wire closed_with].
    + intros l v1 rest [p [Ha Hv]] H1.
      rewrite (executeCheck_bad_internal plugin w Hd p Ha l v1 rest Hv H1).
      now cbn [fst snd stdout wire closed_with].
    + intros l i v2 rest [p [Ha Hv]] H2.
      rewrite (executeCheck_bad_external plugin w Hd p Ha l i v2 rest Hv H2).
      now cbn [fst snd stdout wire closed_with].
Qed.

Lemma C3_witness :
  dial (agent (boot unreachable)) (Target sample_plugin) (Community sample_plugin)
    gosnmp.Version1 = Some "request timeout" /\
  fails_critical sample_plugin (boot unreachable) "failed to connect to tempager."
    [connect_event sample_plugin].
Proof.
  split; [reflexivity|].
  exact (proj1 (proj2 (C3_error_paths_are_critical net.ParseIP sample_plugin (boot unreachable)))
           "request timeout" eq_refl).
Defined.

(** ** Scaling *)

Lemma in_upto (k : nat) (lo n : Z) : lo <= n < lo + Z.of_nat k -> In n (upto k lo).
Proof.
  revert lo. induction k as [|k IH]; intros lo H; [lia|].
  cbn [upto]. destruct (Z.eq_dec lo n) as [->|Hne]; [now left|].
  right. apply IH. lia.
Qed.

(** Between -327.67 and 327.67 degrees the two printed decimals are the raw
    reading itself: the division by 100 loses nothing that [%.2f] shows. *)
Lemma scaling_prints_raw (n : Z) :
  -32767 <= n <= 32767 -> fmt_f2 (external_temperature n) = hundredths_text n.
Proof.
  intros H.
  assert (All : forallb prints_its_hundredths (upto (Z.to_nat 65535) (-32767)) = true)
    by (vm_compute; reflexivity).
  rewrite forallb_forall in All.
  assert (P : prints_its_hundredths n = true)
    by (apply All, in_upto; rewrite Z2Nat.id by lia; lia).
  unfold prints_its_hundredths in P. unfold fmt_f2, hundredths_text.
  destruct (Prim2SF (external_temperature n)) as [s|s| |s m e]; try discriminate P;
    apply andb_prop in P; destruct P as [P1 P2].
  - apply Z.eqb_eq in P1. subst n. now destruct s.
  - apply Z.eqb_eq in P1. apply eqb_prop in P2. now rewrite P1, P2.
Qed.

(** C4. The interpreter scales each raw reading by one binary64 division by
    100: the temperatures it prints and the one it compares are
    [float64(raw) / 100.0]. Raw 3567 scales to the binary64 nearest to 35.67,
    within 2^-48 of it, and prints as 35.67; for every raw reading between
    -32767 and 32767 the two printed decimals are the raw reading's own. *)
Theorem C4_scaling_divides_by_100 :
  forall (plugin : Config) (w : World) (l : list Byte.byte) (i x : Z) (rest : list value),
    connects plugin w ->
    reads w (VBytes l :: VInt i :: VInt x :: rest) ->
    let r := executeCheck plugin w in
    internal_temperature i = (float64_of_int i / 100)%float /\
    external_temperature x = (float64_of_int x / 100)%float /\
    (exists s,
       s = severity_spec (float64_of_int x / 100)%float (Warning plugin) (Critical plugin) /\
       returned_state r = Some (state_of s) /\
       stdout (fst r) =
         stdout w ++ name_of plugin ++ " " ++ label_of s ++ ": " ++
         string_of_list_byte l ++ " temperature is " ++
         fmt_f2 (float64_of_int x / 100)%float ++ "c | tempager_internal=" ++
         fmt_f2 (float64_of_int i / 100)%float ++ ", tempager_external=" ++
         fmt_f2 (float64_of_int x / 100)%float ++ LF) /\
    external_temperature 3567 = 0x1.1d5c28f5c28f6p+5%float /\
    fmt_f2 (external_temperature 3567) = "35.67" /\
    (exists q, exact (external_temperature 3567) = Some q /\
               (Qabs (q - (3567 # 100)) <= 1 # (2 ^ 48)%positive)%Q) /\
    (-32767 <= i <= 32767 -> fmt_f2 (internal_temperature i) = hundredths_text i) /\
    (-32767 <= x <= 32767 -> fmt_f2 (external_temperature x) = hundredths_text x).
Proof.
  intros plugin w l i x rest Hd Hr r. subst r.
  rewrite (reading_run plugin w l i x rest Hd Hr).
  split; [reflexivity|]. split; [reflexivity|].
  split; [|split; [|split; [|split; [|split]]]].
  - eexists. split; [reflexivity|]. split; [reflexivity|].
    cbn [fst stdout closed_with].
    unfold status_line, human_line_spec, metrics_spec, internal_temperature,
      external_temperature.
    repeat (rewrite append_assoc; cbn [append]). reflexivity.
  - reflexivity.
  - reflexivity.
  - exists (5020106209634550 # 140737488355328)%Q. split; [reflexivity|].
    vm_compute. discriminate.
  - apply scaling_prints_raw.
  - apply scaling_prints_raw.
Qed.

Lemma C4_witness :
  connects sample_plugin (sample_world 2850 3567) /\
  reads (sample_world 2850 3567)
    [VBytes (list_byte_of_string "Server Room"); VInt 2850; VInt 3567] /\
  -32767 <= 3567 <= 32767 /\
  fmt_f2 (external_temperature 3567) = "35.67".
Proof.
  split; [reflexivity|]. split; [apply answering_reads|]. split; [lia|].
  apply (proj2 (proj2 (proj2 (proj2 (proj2 (proj2 (proj2
           (C4_scaling_divides_by_100 sample_plugin (sample_world 2850 3567)
              (list_byte_of_string "Server Room") 2850 3567 []
              (sample_connects _) (answering_reads _))))))))).
  lia.
Defined.

(** ** The status line *)

(** The scenario does not print the bare human line and its severity is not
    OK: the line starts with the plugin name and the label, and 36.20 is
    above the warning threshold. *)
Lemma C5_scenario_is_not_bare_and_not_ok :
  stdout (fst scenario) <>
    "Server Room temperature is 36.20c | tempager_internal=28.50, tempager_external=36.20" /\
  returned_state scenario <> Some sensu.CheckStateOK.
Proof.
  split; vm_compute; discriminate.
Qed.

(** C5, amended. On a successful read the check prints the plugin name, the
    severity label and a colon, then the human line
    [<location> temperature is <external>c | tempager_internal=<internal>,
    tempager_external=<external>] with two decimals each, then a line feed.
    In the scenario the human line is the expected one, it is printed after
    [check-tempager-3e-temperature WARNING: ], and the severity is WARNING. *)
Theorem C5_status_line :
  forall (plugin : Config) (w : World) (l : list Byte.byte) (i x : Z) (rest : list value),
    connects plugin w ->
    reads w (VBytes l :: VInt i :: VInt x :: rest) ->
    let r := executeCheck plugin w in
    (exists s,
       returned_state r = Some (state_of s) /\
       stdout (fst r) =
         stdout w ++ name_of plugin ++ " " ++ label_of s ++ ": " ++
         human_line_spec (string_of_list_byte l)
           (internal_temperature i) (external_temperature x) ++ LF) /\
    human_line_spec "Server Room" (internal_temperature 2850) (external_temperature 3620) =
      "Server Room temperature is 36.20c | tempager_internal=28.50, tempager_external=36.20" /\
    stdout (fst scenario) =
      "check-tempager-3e-temperature WARNING: Server Room temperature is 36.20c | tempager_internal=28.50, tempager_external=36.20"
      ++ LF /\
    returned_state scenario = Some sensu.CheckStateWarning.
Proof.
  intros plugin w l i x rest Hd Hr r. subst r.
  rewrite (reading_run plugin w l i x rest Hd Hr).
  split; [|split; [|split]]; try reflexivity.
  eexists. split; reflexivity.
Qed.

Lemma C5_witness :
  connects sample_plugin (sample_world 2850 3620) /\
  reads (sample_world 2850 3620)
    [VBytes (list_byte_of_string "Server Room"); VInt 2850; VInt 3620] /\
  returned_state scenario = Some sensu.CheckStateWarning.
Proof.
  split; [reflexivity|]. split; [apply answering_reads|].
  exact (proj2 (proj2 (proj2
           (C5_status_line sample_plugin (sample_world 2850 3620)
              (list_byte_of_string "Server Room") 2850 3620 []
              (sample_connects _) (answering_reads _))))).
Defined.

(** ** Severity and the external sensor *)

(** C6. Two successful runs that agree on the raw external reading and on
    the two thresholds return the same state and print the same label,
    whatever their names, targets, locations and internal readings; each
    prints its own internal reading. *)
Theorem C6_severity_depends_on_external_only :
  forall (p1 p2 : Config) (w1 w2 : World) (l1 l2 : list Byte.byte) (i1 i2 x : Z)
         (rest1 rest2 : list value),
    Warning p1 = Warning p2 ->
    Critical p1 = Critical p2 ->
    connects p1 w1 -> connects p2 w2 ->
    reads w1 (VBytes l1 :: VInt i1 :: VInt x :: rest1) ->
    reads w2 (VBytes l2 :: VInt i2 :: VInt x :: rest2) ->
    returned_state (executeCheck p1 w1) = returned_state (executeCheck p2 w2) /\
    exists s,
      s = severity_spec (external_temperature x) (Warning p1) (Critical p1) /\
      returned_state (executeCheck p1 w1) = Some (state_of s) /\
      stdout (fst (executeCheck p1 w1)) = stdout w1 ++ status_line p1 s l1 i1 x /\
      stdout (fst (executeCheck p2 w2)) = stdout w2 ++ status_line p2 s l2 i2 x.
Proof.
  intros p1 p2 w1 w2 l1 l2 i1 i2 x rest1 rest2 HW HC Hd1 Hd2 Hr1 Hr2.
  rewrite (reading_run p1 w1 l1 i1 x rest1 Hd1 Hr1).
  rewrite (reading_run p2 w2 l2 i2 x rest2 Hd2 Hr2).
  rewrite <- HW, <- HC. split; [reflexivity|].
  eexists. repeat split.
Qed.

Lemma C6_witness :
  returned_state (executeCheck sample_plugin (sample_world 2850 3620)) =
  returned_state
    (executeCheck (plugin_defaults "192.0.2.7" "private")
       (boot (answering [VBytes (list_byte_of_string "Attic"); VInt 9900; VInt 3620]))).
Proof.
  exact (proj1 (C6_severity_depends_on_external_only
                  sample_plugin (plugin_defaults "192.0.2.7" "private")
                  (sample_world 2850 3620)
                  (boot (answering [VBytes (list_byte_of_string "Attic"); VInt 9900; VInt 3620]))
                  (list_byte_of_string "Server Room") (list_byte_of_string "Attic")
                  2850 9900 3620 [] []
                  eq_refl eq_refl eq_refl eq_refl
                  (answering_reads _) (answering_reads _))).
Defined.

(** ** The connection *)

(** C7. Once the connection is made, every run ends with it closed: the
    read fails, a type check fails, an index is out of range or the reading
    is classified, the last thing on the wire is the one close, after the one
    connect and the one read. *)
Theorem C7_connection_released :
  forall (plugin : Config) (w : World),
    connects plugin w ->
    gosnmp.Conn (Default (fst (executeCheck plugin w))) = gosnmp.Closed /\
    wire (fst (executeCheck plugin w)) =
      (wire w ++ [connect_event plugin; EvGet oids; EvClose])%list.
Proof.
  intros plugin w Hd.
  destruct (connected_run_world plugin w Hd) as [out ->].
  split; reflexivity.
Qed.

Lemma C7_witness :
  connects sample_plugin (boot mute) /\
  gosnmp.Conn (Default (fst (executeCheck sample_plugin (boot mute)))) = gosnmp.Closed.
Proof.
  split; [reflexivity|].
  exact (proj1 (C7_connection_released sample_plugin (boot mute) eq_refl)).
Defined.

(** ** Thresholds that cross *)

(** C8. The thresholds are not validated: [checkArgs] gives the same result
    whatever they are. When the warning threshold is at or above the critical
    one, no successful run is WARNING: it is CRITICAL when the external
    temperature is strictly above the critical threshold and OK otherwise. *)
Theorem C8_warning_unreachable_when_thresholds_cross :
  forall (ParseIP : string -> option IP) (plugin : Config) (w : World)
         (l : list Byte.byte) (i x : Z) (rest : list value),
    (Critical plugin <=? Warning plugin)%float = true ->
    connects plugin w ->
    reads w (VBytes l :: VInt i :: VInt x :: rest) ->
    let e := external_temperature x in
    let r := executeCheck plugin w in
    (forall warning critical w0,
       checkArgs ParseIP
         (mkConfig (PluginConfig plugin) (Target plugin) (Community plugin) warning critical) w0
       = checkArgs ParseIP plugin w0) /\
    returned_state r <> Some sensu.CheckStateWarning /\
    ((Critical plugin <? e)%float = true ->
       returned_state r = Some sensu.CheckStateCritical) /\
    ((Critical plugin <? e)%float = false ->
       returned_state r = Some sensu.CheckStateOK).
Proof.
  intros ParseIP plugin w l i x rest Hle Hd Hr e r. subst r.
  rewrite (reading_run plugin w l i x rest Hd Hr). fold e.
  split; [reflexivity|].
  unfold returned_state, severity_spec. cbn [snd].
  destruct (Critical plugin <? e)%float eqn:Hc.
  - repeat split; try discriminate.
  - destruct (Warning plugin <? e)%float eqn:Hw.
    + rewrite (leb_ltb_trans _ _ _ Hle Hw) in Hc. discriminate Hc.
    + repeat split; try discriminate.
Qed.

Lemma C8_witness :
  (Critical crossed_plugin <=? Warning crossed_plugin)%float = true /\
  connects crossed_plugin (sample_world 2850 3620) /\
  reads (sample_world 2850 3620)
    [VBytes (list_byte_of_string "Server Room"); VInt 2850; VInt 3620] /\
  returned_state (executeCheck crossed_plugin (sample_world 2850 3620)) =
    Some sensu.CheckStateCritical.
Proof.
  split; [reflexivity|]. split; [reflexivity|]. split; [apply answering_reads|].
  exact (proj1 (proj2 (proj2
           (C8_warning_unreachable_when_thresholds_cross net.ParseIP crossed_plugin
              (sample_world 2850 3620) (list_byte_of_string "Server Room") 2850 3620 []
              eq_refl eq_refl (answering_reads _)))) eq_refl).
Defined.

(** ** Short responses *)

(** C9. The three values are taken by index with no look at the length. A
    response of three variables or more never panics. A shorter response
    panics with an index out of range exactly when it is a prefix of a
    well-typed reading (nothing, a location, or a location and an internal
    temperature); nothing is printed then, so no named error is produced. *)
Theorem C9_indexing_is_unchecked :
  forall (plugin : Config) (w : World) (p : gosnmp.SnmpPacket),
    connects plugin w ->
    answer (agent w) oids = inl p ->
    let r := executeCheck plugin w in
    ((3 <= List.length (gosnmp.Variables p))%nat ->
       exists st, snd r = Returned (st, None)) /\
    (forall pn, snd r = Panicked pn <->
       (values p = [] /\ pn = IndexOutOfRange 0 0) \/
       (exists l, values p = [VBytes l] /\ pn = IndexOutOfRange 1 1) \/
       (exists l i, values p = [VBytes l; VInt i] /\ pn = IndexOutOfRange 2 2)) /\
    (forall pn, snd r = Panicked pn -> stdout (fst r) = stdout w).
Proof.
  intros plugin w p Hd Ha r. subst r.
  assert (Hlen : List.length (gosnmp.Variables p) = List.length (values p))
    by (unfold values; now rewrite length_map).
  rewrite Hlen.
  remember (values p) as vs eqn:Hv. symmetry in Hv.
  destruct (shape_total vs).
  - rewrite (executeCheck_empty plugin w Hd p Ha Hv). cbn [fst snd List.length closed_with stdout].
    split; [intros H; lia|]. split.
    + intros pn. split.
      * intros [= <-]. now left.
      * intros [[_ ->]|[[l [H _]]|[l [i [H _]]]]]; [reflexivity|discriminate H|discriminate H].
    + intros _ _. apply append_nil_r.
  - rewrite (executeCheck_bad_location plugin w Hd p Ha _ _ Hv H).
    cbn [fst snd]. split; [intros _; now eexists|]. split.
    + intros pn. split; [intros E; discriminate E|].
      intros [[E _]|[[l [E _]]|[l [i [E _]]]]]; try discriminate E;
        injection E as -> _; discriminate H.
    + intros pn E. discriminate E.
  - rewrite (executeCheck_one plugin w Hd p Ha _ Hv). cbn [fst snd List.length closed_with stdout].
    split; [intros H; lia|]. split.
    + intros pn. split.
      * intros [= <-]. right. left. now exists l.
      * intros [[E _]|[[l' [_ ->]]|[l' [i [E _]]]]]; [discriminate E|reflexivity|discriminate E].
    + intros _ _. apply append_nil_r.
  - rewrite (executeCheck_bad_internal plugin w Hd p Ha _ _ _ Hv H).
    cbn [fst snd]. split; [intros _; now eexists|]. split.
    + intros pn. split; [intros E; discriminate E|].
      intros [[E _]|[[l' [E _]]|[l' [i [E _]]]]]; try discriminate E;
        injection E as _ -> _; discriminate H.
    + intros pn E. discriminate E.
  - rewrite (executeCheck_two plugin w Hd p Ha _ _ Hv). cbn [fst snd List.length closed_with stdout].
    split; [intros H; lia|]. split.
    + intros pn. split.
      * intros [= <-]. right. right. now exists l, i.
      * intros [[E _]|[[l' [E _]]|[l' [i' [_ ->]]]]]; [discriminate E|discriminate E|reflexivity].
    + intros _ _. apply append_nil_r.
  - rewrite (executeCheck_bad_external plugin w Hd p Ha _ _ _ _ Hv H).
    cbn [fst snd]. split; [intros _; now eexists|]. split.
    + intros pn. split; [intros E; discriminate E|].
      intros [[E _]|[[l' [E _]]|[l' [i' [E _]]]]]; discriminate E.
    + intros pn E. discriminate E.
  - rewrite (executeCheck_reading plugin w Hd p Ha _ _ _ _ Hv).
    cbn [fst snd]. split; [intros _; now eexists|]. split.
    + intros pn. split; [intros E; discriminate E|].
      intros [[E _]|[[l' [E _]]|[l' [i' [E _]]]]]; discriminate E.
    + intros pn E. discriminate E.
Qed.

Lemma C9_witness :
  connects sample_plugin (boot (answering [VBytes (list_byte_of_string "Server Room")])) /\
  snd (executeCheck sample_plugin
         (boot (answering [VBytes (list_byte_of_string "Server Room")])))
    = Panicked (IndexOutOfRange 1 1).
Proof.
  split; [reflexivity|].
  apply (proj1 (proj2
           (C9_indexing_is_unchecked sample_plugin
              (boot (answering [VBytes (list_byte_of_string "Server Room")]))
              (gosnmp.mkPacket [gosnmp.mkPDU "" (VBytes (list_byte_of_string "Server Room"))])
              eq_refl eq_refl))).
  right. left. now exists (list_byte_of_string "Server Room").
Defined.

(** ** The type checks *)

Lemma assert_bytes_none (v : value) : (forall b, v <> VBytes b) -> assert_bytes v = None.
Proof. destruct v; intros H; try reflexivity. now destruct (H b). Qed.

Lemma assert_int_none (v : value) : (forall n, v <> VInt n) -> assert_int v = None.
Proof. destruct v; intros H; try reflexivity. now destruct (H n). Qed.

(** C10. Each type check accepts one dynamic type. A first value that is
    not a byte slice is refused with the location line; after a byte slice, a
    second value that is not an [int] is refused with the internal
    temperature line; after both, a third value that is not an [int] is
    refused with the external temperature line; each refusal is CRITICAL. A
    byte slice followed by two [int]s is accepted and classified. An integer
    held as [int64], as [uint] or as [float64] is refused like any other. *)
Theorem C10_type_checks_accept_one_representation :
  forall (plugin : Config) (w : World) (v0 v1 v2 : value) (rest : list value),
    connects plugin w ->
    reads w (v0 :: v1 :: v2 :: rest) ->
    let traffic := [connect_event plugin; EvGet oids; EvClose] in
    ((forall b, v0 <> VBytes b) ->
       fails_critical plugin w "failed to read location." traffic) /\
    (forall b, v0 = VBytes b -> (forall n, v1 <> VInt n) ->
       fails_critical plugin w "failed to read internal temperature." traffic) /\
    (forall b n, v0 = VBytes b -> v1 = VInt n -> (forall m, v2 <> VInt m) ->
       fails_critical plugin w "failed to read external temperature." traffic) /\
    (forall b n m, v0 = VBytes b -> v1 = VInt n -> v2 = VInt m ->
       exists s,
         snd (executeCheck plugin w) = Returned (state_of s, None) /\
         stdout (fst (executeCheck plugin w)) = stdout w ++ status_line plugin s b n m) /\
    (forall b n, v0 = VBytes b ->
       v1 = VInt64 n \/ v1 = VUint n \/ v1 = VFloat64 (float64_of_int n) ->
       fails_critical plugin w "failed to read internal temperature." traffic) /\
    (forall b n m, v0 = VBytes b -> v1 = VInt n ->
       v2 = VInt64 m \/ v2 = VUint m \/ v2 = VFloat64 (float64_of_int m) ->
       fails_critical plugin w "failed to read external temperature." traffic) /\
    (forall s, v0 = VString s ->
       fails_critical plugin w "failed to read location." traffic).
Proof.
  intros plugin w v0 v1 v2 rest Hd [p [Ha Hv]] traffic. subst traffic.
  assert (L : assert_bytes v0 = None ->
              fails_critical plugin w "failed to read location."
                [connect_event plugin; EvGet oids; EvClose]).
  { intros H0. unfold fails_critical.
    rewrite (executeCheck_bad_location plugin w Hd p Ha v0 _ Hv H0).
    now cbn [fst snd stdout wire closed_with]. }
  assert (I : forall b, v0 = VBytes b -> assert_int v1 = None ->
              fails_critical plugin w "failed to read internal temperature."
                [connect_event plugin; EvGet oids; EvClose]).
  { intros b -> H1. unfold fails_critical.
    rewrite (executeCheck_bad_internal plugin w Hd p Ha b v1 _ Hv H1).
    now cbn [fst snd stdout wire closed_with]. }
  assert (X : forall b n, v0 = VBytes b -> v1 = VInt n -> assert_int v2 = None ->
              fails_critical plugin w "failed to read external temperature."
                [connect_event plugin; EvGet oids; EvClose]).
  { intros b n -> -> H2. unfold fails_critical.
    rewrite (executeCheck_bad_external plugin w Hd p Ha b n v2 _ Hv H2).
    now cbn [fst snd stdout wire closed_with]. }
  split; [|split; [|split; [|split; [|split; [|split]]]]].
  - intros H. apply L. now apply assert_bytes_none.
  - intros b E H. apply (I b E). now apply assert_int_none.
  - intros b n E0 E1 H. apply (X b n E0 E1). now apply assert_int_none.
  - intros b n m -> -> ->.
    rewrite (executeCheck_reading plugin w Hd p Ha b n m rest Hv).
    eexists. split; reflexivity.
  - intros b n E [->|[->| ->]]; now apply (I b E).
  - intros b n m E0 E1 [->|[->| ->]]; now apply (X b n E0 E1).
  - intros s ->. now apply L.
Qed.

Lemma C10_witness :
  connects sample_plugin
    (boot (answering [VBytes (list_byte_of_string "Server Room"); VInt64 2850; VInt 3620])) /\
  fails_critical sample_plugin
    (boot (answering [VBytes (list_byte_of_string "Server Room"); VInt64 2850; VInt 3620]))
    "failed to read internal temperature."
    [connect_event sample_plugin; EvGet oids; EvClose].
Proof.
  split; [reflexivity|].
  apply (proj1 (proj2 (proj2 (proj2 (proj2
           (C10_type_checks_accept_one_representation sample_plugin
              (boot (answering [VBytes (list_byte_of_string "Server Room");
                                VInt64 2850; VInt 3620]))
              (VBytes (list_byte_of_string "Server Room")) (VInt64 2850) (VInt 3620) []
              eq_refl (answering_reads _))))))
         (list_byte_of_string "Server Room") 2850 eq_refl).
  now left.
Defined.

(** * Further properties of [executeCheck] *)

(** ** Every path at once *)

Lemma SFltb_trans (a b c : spec_float) :
  SFltb a b = true -> SFltb b c = true -> SFltb a c = true.
Proof.
  unfold SFltb.
  destruct a as [sa|sa| |sa ma ea], b as [sb|sb| |sb mb eb], c as [sc|sc| |sc mc ec];
    rewrite ?SFcompare_finite;
    try (cbn [SFcompare]; repeat match goal with s : bool |- _ => destruct s end;
         intros; (reflexivity || discriminate)).
  destruct sa, sb, sc; try (intros; (reflexivity || discriminate));
    destruct (Z.compare_spec ea eb), (Z.compare_spec eb ec), (Z.compare_spec ea ec);
    destruct (Pos.compare_spec ma mb), (Pos.compare_spec mb mc), (Pos.compare_spec ma mc);
    cbn [CompOpp]; intros; try reflexivity; try discriminate; exfalso; lia.
Qed.

Lemma ltb_trans (a b c : float) :
  (a <? b)%float = true -> (b <? c)%float = true -> (a <? c)%float = true.
Proof. rewrite !ltb_spec. apply SFltb_trans. Qed.

Lemma ltb_asym (a b : float) : (a <? b)%float = true -> (b <? a)%float = false.
Proof.
  intros H. destruct (b <? a)%float eqn:E; [|reflexivity].
  pose proof (ltb_trans _ _ _ H E) as F. rewrite ltb_irrefl in F. discriminate F.
Qed.

Lemma ltb_never_exceeded (t e : float) : never_exceeded t -> (t <? e)%float = false.
Proof.
  intros [-> | ->]; rewrite ltb_spec.
  - reflexivity.
  - change (Prim2SF infinity) with (S754_infinity false).
    unfold SFltb. destruct (Prim2SF e) as [s|s| |s m x]; try reflexivity; now destruct s.
Qed.

(** The run in a world that could not connect or could, by what came back. *)
Ltac by_run plugin w :=
  let Hd := fresh "Hd" in let err := fresh "err" in
  destruct (dial (agent w) (Target plugin) (Community plugin) gosnmp.Version1)
    as [err|] eqn:Hd;
  [ rewrite (executeCheck_no_connection plugin w err Hd)
  | by_answer plugin w Hd ].

(** X1. A run never returns a Go error and never the Unknown state. Either
    it panics, or it returns OK, WARNING or CRITICAL and has printed exactly
    the plugin name, that state's label, a colon, a message and a line
    feed: the label on the line always agrees with the returned state. *)
Theorem X1_state_and_label_agree :
  forall (plugin : Config) (w : World),
    let r := executeCheck plugin w in
    returned_error r = None /\
    returned_state r <> Some sensu.CheckStateUnknown /\
    ((exists pn, snd r = Panicked pn) \/
     (exists s body,
        snd r = Returned (state_of s, None) /\
        stdout (fst r) =
          stdout w ++ name_of plugin ++ " " ++ label_of s ++ ": " ++ body ++ LF)).
Proof.
  intros plugin w r. subst r. unfold returned_error, returned_state.
  by_run plugin w; cbn [fst snd stdout closed_with];
    (split; [reflexivity|]); (split; [try discriminate|]);
    try (left; eexists; reflexivity);
    try (right; exists CRITICAL; eexists; split; reflexivity).
  - destruct (severity_spec _ _ _); discriminate.
  - right. eexists. eexists. split; reflexivity.
Qed.

(** X2. A state other than CRITICAL is never reported without a reading:
    when a run returns OK or WARNING, the connection was made and the
    response began with a byte slice and two [int]s, and the state is the
    severity of the scaled external reading. *)
Theorem X2_non_critical_needs_a_reading :
  forall (plugin : Config) (w : World) (st : Z),
    returned_state (executeCheck plugin w) = Some st ->
    st <> sensu.CheckStateCritical ->
    connects plugin w /\
    exists l i x rest,
      reads w (VBytes l :: VInt i :: VInt x :: rest) /\
      st = state_of (severity_spec (external_temperature x)
                       (Warning plugin) (Critical plugin)).
Proof.
  intros plugin w st. unfold returned_state.
  by_run plugin w; cbn [snd]; intros [= <-] Hne;
    try (now destruct Hne).
  split; [assumption|].
  exists l, i, x, rest. split; [|reflexivity].
  now exists p.
Qed.

Lemma X2_witness :
  returned_state (executeCheck sample_plugin (sample_world 2850 3620))
    = Some sensu.CheckStateWarning /\
  sensu.CheckStateWarning <> sensu.CheckStateCritical /\
  connects sample_plugin (sample_world 2850 3620).
Proof.
  split; [reflexivity|]. split; [discriminate|].
  destruct (X2_non_critical_needs_a_reading sample_plugin (sample_world 2850 3620)
              sensu.CheckStateWarning) as [H _];
    [reflexivity | discriminate | exact H].
Defined.

(** ** What a run does not look at *)

(** X3. Only the values of the first three variables of the response
    count: the names the variables come back under and any further
    variables are never looked at. Two runs that differ in nothing else end
    alike. *)
Theorem X3_names_and_further_variables_ignored :
  forall (plugin : Config) (w1 w2 : World) (p1 p2 : gosnmp.SnmpPacket),
    Default w1 = Default w2 -> stdout w1 = stdout w2 -> wire w1 = wire w2 ->
    dial (agent w1) (Target plugin) (Community plugin) gosnmp.Version1 =
    dial (agent w2) (Target plugin) (Community plugin) gosnmp.Version1 ->
    answer (agent w1) oids = inl p1 ->
    answer (agent w2) oids = inl p2 ->
    firstn 3 (values p1) = firstn 3 (values p2) ->
    snd (executeCheck plugin w1) = snd (executeCheck plugin w2) /\
    stdout (fst (executeCheck plugin w1)) = stdout (fst (executeCheck plugin w2)) /\
    wire (fst (executeCheck plugin w1)) = wire (fst (executeCheck plugin w2)) /\
    Default (fst (executeCheck plugin w1)) = Default (fst (executeCheck plugin w2)).
Proof.
  intros plugin w1 w2 p1 p2 HD Ho Hw Hdial Ha1 Ha2 Hv.
  destruct (dial (agent w1) (Target plugin) (Community plugin) gosnmp.Version1)
    as [err|] eqn:Hd1; symmetry in Hdial.
  { rewrite (executeCheck_no_connection plugin w1 err Hd1),
            (executeCheck_no_connection plugin w2 err Hdial).
    cbn [fst snd stdout wire Default]. unfold configured. now rewrite HD, Ho, Hw. }
  assert (W : forall out, stdout (closed_with plugin w1 out) = stdout (closed_with plugin w2 out)
              /\ wire (closed_with plugin w1 out) = wire (closed_with plugin w2 out)
              /\ Default (closed_with plugin w1 out) = Default (closed_with plugin w2 out)).
  { intros out. unfold closed_with, configured. cbn [stdout wire Default].
    now rewrite HD, Ho, Hw. }
  remember (values p1) as vs1 eqn:Hv1. remember (values p2) as vs2 eqn:Hv2.
  symmetry in Hv1, Hv2.
  destruct vs1 as [|a1 [|b1 [|c1 d1]]], vs2 as [|a2 [|b2 [|c2 d2]]];
    cbn [firstn] in Hv; try discriminate Hv; inversion Hv; subst; clear Hv.
  - rewrite (executeCheck_empty plugin w1 Hd1 p1 Ha1 Hv1),
            (executeCheck_empty plugin w2 Hdial p2 Ha2 Hv2).
    cbn [fst snd]. split; [reflexivity|apply W].
  - destruct (assert_bytes a2) as [l|] eqn:E0.
    + destruct a2; try discriminate E0.
      rewrite (executeCheck_one plugin w1 Hd1 p1 Ha1 _ Hv1),
              (executeCheck_one plugin w2 Hdial p2 Ha2 _ Hv2).
      cbn [fst snd]. split; [reflexivity|apply W].
    + rewrite (executeCheck_bad_location plugin w1 Hd1 p1 Ha1 _ _ Hv1 E0),
              (executeCheck_bad_location plugin w2 Hdial p2 Ha2 _ _ Hv2 E0).
      cbn [fst snd]. split; [reflexivity|apply W].
  - destruct (assert_bytes a2) as [l|] eqn:E0.
    + destruct a2; try discriminate E0.
      destruct (assert_int b2) as [i|] eqn:E1.
      * destruct b2; try discriminate E1.
        rewrite (executeCheck_two plugin w1 Hd1 p1 Ha1 _ _ Hv1),
                (executeCheck_two plugin w2 Hdial p2 Ha2 _ _ Hv2).
        cbn [fst snd]. split; [reflexivity|apply W].
      * rewrite (executeCheck_bad_internal plugin w1 Hd1 p1 Ha1 _ _ _ Hv1 E1),
                (executeCheck_bad_internal plugin w2 Hdial p2 Ha2 _ _ _ Hv2 E1).
        cbn [fst snd]. split; [reflexivity|apply W].
    + rewrite (executeCheck_bad_location plugin w1 Hd1 p1 Ha1 _ _ Hv1 E0),
              (executeCheck_bad_location plugin w2 Hdial p2 Ha2 _ _ Hv2 E0).
      cbn [fst snd]. split; [reflexivity|apply W].
  - destruct (assert_bytes a2) as [l|] eqn:E0.
    + destruct a2; try discriminate E0.
      destruct (assert_int b2) as [i|] eqn:E1.
      * destruct b2; try discriminate E1.
        destruct (assert_int c2) as [x|] eqn:E2.
        -- destruct c2; try discriminate E2.
           rewrite (executeCheck_reading plugin w1 Hd1 p1 Ha1 _ _ _ _ Hv1),
                   (executeCheck_reading plugin w2 Hdial p2 Ha2 _ _ _ _ Hv2).
           cbn [fst snd]. split; [reflexivity|apply W].
        -- rewrite (executeCheck_bad_external plugin w1 Hd1 p1 Ha1 _ _ _ _ Hv1 E2),
                   (executeCheck_bad_external plugin w2 Hdial p2 Ha2 _ _ _ _ Hv2 E2).
           cbn [fst snd]. split; [reflexivity|apply W].
      * rewrite (executeCheck_bad_internal plugin w1 Hd1 p1 Ha1 _ _ _ Hv1 E1),
                (executeCheck_bad_internal plugin w2 Hdial p2 Ha2 _ _ _ Hv2 E1).
        cbn [fst snd]. split; [reflexivity|apply W].
    + rewrite (executeCheck_bad_location plugin w1 Hd1 p1 Ha1 _ _ Hv1 E0),
              (executeCheck_bad_location plugin w2 Hdial p2 Ha2 _ _ Hv2 E0).
      cbn [fst snd]. split; [reflexivity|apply W].
Qed.

Lemma X3_witness :
  firstn 3 (map gosnmp.Value
              [gosnmp.mkPDU ".1.3.6.1.2.1.1.6.0" (VBytes (list_byte_of_string "Server Room"));
               gosnmp.mkPDU ".1.3.6.1.4.1.20916.1.7.1.1.1.1.0" (VInt 2850);
               gosnmp.mkPDU ".1.3.6.1.4.1.20916.1.7.1.2.1.1.0" (VInt 3620);
               gosnmp.mkPDU ".1.3.6.1.2.1.1.5.0" (VString "tempager")]) =
  [VBytes (list_byte_of_string "Server Room"); VInt 2850; VInt 3620] /\
  snd (executeCheck sample_plugin (boot chatty)) =
  snd (executeCheck sample_plugin (sample_world 2850 3620)).
Proof.
  split; [reflexivity|].
  exact (proj1 (X3_names_and_further_variables_ignored sample_plugin
                  (boot chatty) (sample_world 2850 3620) _ _
                  eq_refl eq_refl eq_refl eq_refl eq_refl eq_refl eq_refl)).
Defined.


(** ** Readings and thresholds in hundredths *)

Lemma scaling_rises (n : Z) :
  -32767 <= n < 32767 ->
  (external_temperature n <? external_temperature (n + 1))%float = true.
Proof.
  intros H.
  assert (All : forallb rises_at (upto (Z.to_nat 65534) (-32767)) = true)
    by (vm_compute; reflexivity).
  rewrite forallb_forall in All. apply (All n), in_upto.
  rewrite Z2Nat.id by lia. lia.
Qed.

(** On sixteen bits the scaling is strictly increasing: two different raw
    readings never scale to the same temperature. *)
Lemma scaling_strict (x y : Z) :
  in_range x -> in_range y -> x < y ->
  (external_temperature x <? external_temperature y)%float = true.
Proof.
  unfold in_range. intros Hx Hy Hlt.
  assert (G : forall k : nat, x + 1 + Z.of_nat k <= 32767 ->
               (external_temperature x <? external_temperature (x + 1 + Z.of_nat k))%float
               = true).
  { induction k as [|k IH]; intros Hk.
    - rewrite Z.add_0_r. apply scaling_rises. lia.
    - replace (x + 1 + Z.of_nat (S k)) with (x + 1 + Z.of_nat k + 1) by lia.
      apply ltb_trans with (external_temperature (x + 1 + Z.of_nat k)).
      + apply IH. lia.
      + apply scaling_rises. lia. }
  replace y with (x + 1 + Z.of_nat (Z.to_nat (y - x - 1))) by lia.
  apply G. lia.
Qed.

Lemma above_threshold_in_hundredths (k x : Z) :
  in_range k -> in_range x ->
  (external_temperature k <? external_temperature x)%float = (k <? x).
Proof.
  intros Hk Hx. destruct (Z.ltb_spec k x) as [H|H].
  - now apply scaling_strict.
  - destruct (Z.eq_dec x k) as [->|Hne]; [apply ltb_irrefl|].
    apply ltb_asym, scaling_strict; [assumption|assumption|lia].
Qed.

(** X5. A hotter external reading is never reported milder: on sixteen
    bits, whatever the thresholds, if one successful run reads no more than
    another then its state is no higher. *)
Theorem X5_hotter_is_never_milder :
  forall (plugin : Config) (w1 w2 : World) (l1 l2 : list Byte.byte)
         (i1 i2 x y : Z) (rest1 rest2 : list value),
    in_range x -> in_range y -> x <= y ->
    connects plugin w1 -> connects plugin w2 ->
    reads w1 (VBytes l1 :: VInt i1 :: VInt x :: rest1) ->
    reads w2 (VBytes l2 :: VInt i2 :: VInt y :: rest2) ->
    exists s t,
      returned_state (executeCheck plugin w1) = Some s /\
      returned_state (executeCheck plugin w2) = Some t /\
      s <= t.
Proof.
  intros plugin w1 w2 l1 l2 i1 i2 x y rest1 rest2 Hx Hy Hle Hd1 Hd2 Hr1 Hr2.
  rewrite (reading_run plugin w1 l1 i1 x rest1 Hd1 Hr1).
  rewrite (reading_run plugin w2 l2 i2 y rest2 Hd2 Hr2).
  unfold returned_state. cbn [snd]. eexists. eexists.
  split; [reflexivity|]. split; [reflexivity|].
  destruct (Z.eq_dec x y) as [->|Hne]; [lia|].
  assert (Hlt : (external_temperature x <? external_temperature y)%float = true)
    by (apply scaling_strict; [assumption|assumption|lia]).
  unfold severity_spec.
  destruct (Critical plugin <? external_temperature x)%float eqn:Cx.
  - rewrite (ltb_trans _ _ _ Cx Hlt). lia.
  - destruct (Warning plugin <? external_temperature x)%float eqn:Wx.
    + rewrite (ltb_trans _ _ _ Wx Hlt).
      destruct (Critical plugin <? external_temperature y)%float;
        cbv [state_of sensu.CheckStateWarning sensu.CheckStateCritical]; lia.
    + destruct (Critical plugin <? external_temperature y)%float;
        [|destruct (Warning plugin <? external_temperature y)%float];
        cbv [state_of sensu.CheckStateOK sensu.CheckStateWarning sensu.CheckStateCritical];
        lia.
Qed.

Lemma X5_witness :
  in_range 2850 /\ in_range 3620 /\ 2850 <= 3620 /\
  exists s t,
    returned_state (executeCheck sample_plugin (sample_world 3620 2850)) = Some s /\
    returned_state (executeCheck sample_plugin (sample_world 2850 3620)) = Some t /\
    s <= t.
Proof.
  unfold in_range. split; [lia|]. split; [lia|]. split; [lia|].
  apply (X5_hotter_is_never_milder sample_plugin
           (sample_world 3620 2850) (sample_world 2850 3620)
           (list_byte_of_string "Server Room") (list_byte_of_string "Server Room")
           3620 2850 2850 3620 [] []).
  - unfold in_range. lia.
  - unfold in_range. lia.
  - lia.
  - reflexivity.
  - reflexivity.
  - apply answering_reads.
  - apply answering_reads.
Defined.

(** X6. With thresholds that are themselves whole hundredths, the binary64
    comparison decides as the raw integers do: on sixteen bits, a reading [x]
    against warning [j / 100] and critical [k / 100] is CRITICAL when
    [k < x], else WARNING when [j < x], else OK. The default thresholds 35.0
    and 40.0 are [3500 / 100] and [4000 / 100]. *)
Theorem X6_thresholds_in_hundredths :
  forall (plugin : Config) (w : World) (l : list Byte.byte) (i x : Z)
         (rest : list value) (j k : Z),
    in_range x -> in_range j -> in_range k ->
    Warning plugin = external_temperature j ->
    Critical plugin = external_temperature k ->
    connects plugin w ->
    reads w (VBytes l :: VInt i :: VInt x :: rest) ->
    returned_state (executeCheck plugin w) =
      Some (if k <? x then sensu.CheckStateCritical
            else if j <? x then sensu.CheckStateWarning
            else sensu.CheckStateOK) /\
    external_temperature 3500 = 35%float /\
    external_temperature 4000 = 40%float.
Proof.
  intros plugin w l i x rest j k Hx Hj Hk HW HC Hd Hr.
  rewrite (reading_run plugin w l i x rest Hd Hr).
  unfold returned_state, severity_spec. cbn [snd].
  rewrite HW, HC, !above_threshold_in_hundredths by assumption.
  split; [|split; reflexivity].
  destruct (k <? x); [reflexivity|]. now destruct (j <? x).
Qed.

Lemma X6_witness :
  in_range 3620 /\ in_range 3500 /\ in_range 4000 /\
  Warning sample_plugin = external_temperature 3500 /\
  Critical sample_plugin = external_temperature 4000 /\
  returned_state (executeCheck sample_plugin (sample_world 2850 3620)) =
    Some sensu.CheckStateWarning.
Proof.
  unfold in_range. split; [lia|]. split; [lia|]. split; [lia|].
  split; [reflexivity|]. split; [reflexivity|].
  apply (proj1 (X6_thresholds_in_hundredths sample_plugin (sample_world 2850 3620)
                  (list_byte_of_string "Server Room") 2850 3620 [] 3500 4000
                  ltac:(unfold in_range; lia) ltac:(unfold in_range; lia)
                  ltac:(unfold in_range; lia)
                  eq_refl eq_refl eq_refl (answering_reads _))).
Defined.

(** ** Thresholds that are not numbers *)

(** X7. A threshold that is not a number or is plus infinity switches its
    tier off: no successful run is CRITICAL under such a critical threshold,
    none is WARNING under such a warning threshold, and under two such
    thresholds every successful run is OK. *)
Theorem X7_threshold_never_exceeded :
  forall (plugin : Config) (w : World) (l : list Byte.byte) (i x : Z) (rest : list value),
    connects plugin w ->
    reads w (VBytes l :: VInt i :: VInt x :: rest) ->
    let r := executeCheck plugin w in
    (never_exceeded (Critical plugin) ->
       returned_state r <> Some sensu.CheckStateCritical) /\
    (never_exceeded (Warning plugin) ->
       returned_state r <> Some sensu.CheckStateWarning) /\
    (never_exceeded (Critical plugin) -> never_exceeded (Warning plugin) ->
       returned_state r = Some sensu.CheckStateOK).
Proof.
  intros plugin w l i x rest Hd Hr r. subst r.
  rewrite (reading_run plugin w l i x rest Hd Hr).
  unfold returned_state, severity_spec. cbn [snd].
  split; [|split].
  - intros HC. rewrite (ltb_never_exceeded _ _ HC).
    destruct (Warning plugin <? external_temperature x)%float; discriminate.
  - intros HW. rewrite (ltb_never_exceeded _ _ HW).
    destruct (Critical plugin <? external_temperature x)%float; discriminate.
  - intros HC HW. now rewrite (ltb_never_exceeded _ _ HC), (ltb_never_exceeded _ _ HW).
Qed.

Lemma X7_witness :
  connects nan_plugin (sample_world 2850 9900) /\
  never_exceeded (Critical nan_plugin) /\
  returned_state (executeCheck nan_plugin (sample_world 2850 9900))
    <> Some sensu.CheckStateCritical.
Proof.
  split; [reflexivity|]. split; [now left|].
  apply (proj1 (X7_threshold_never_exceeded nan_plugin (sample_world 2850 9900)
                  (list_byte_of_string "Server Room") 2850 9900 []
                  eq_refl (answering_reads _))).
  now left.
Defined.
